(** * rss.py: keyword filter over RSS feeds

    A shallow embedding of [rss.py]: the entry filter [get_recent_entries],
    the HTML cleaner [clean_html], the keyword loader [read_keywords] and the
    orchestrator [process_rss_file].

    Python exceptions are values of [exn] carried by [result]; the operator's
    console and the report file are components of the run state [run]. The
    third-party libraries the script calls ([re], Beautiful Soup,
    [html.unescape]) are a parameter [pylib] of the program; [frag] is an
    executable instance covering a documented fragment of each of them. *)

From Stdlib Require Import List String Ascii ZArith Lia Bool.
Import ListNotations.

Local Open Scope string_scope.
Local Open Scope list_scope.
Local Open Scope Z_scope.

Set Implicit Arguments.

(** ** Exceptions and results *)

(** The exceptions the script can meet. Every one of them derives from
    Python's [Exception], so the handler of line 129 catches them all. *)
Inductive exn : Type :=
| AttributeError (attr : string)   (* entry.<attr> on an entry without the key *)
| TypeError                        (* None[:6] *)
| ReError (pattern : string)       (* re.error: the pattern does not compile *)
| StatusError (status_code : Z)    (* Exception("Falha ao obter feed RSS: ...") *)
| RequestException (msg : string). (* raised by requests.get itself *)

Inductive result (A : Type) : Type :=
| Ok (a : A)
| Raise (e : exn).
Arguments Ok {A} a.
Arguments Raise {A} e.

Definition bind {A B : Type} (m : result A) (k : A -> result B) : result B :=
  match m with
  | Ok a => k a
  | Raise e => Raise e
  end.

Notation "x <- m ;; k" := (bind m (fun x => k))
  (at level 61, m at next level, right associativity).

(** ** datetime *)

(** A naive [datetime.datetime]; Python orders two of them as the tuples of
    their fields. *)
Record datetime : Type := mkDatetime {
  year : Z; month : Z; day : Z;
  hour : Z; minute : Z; second : Z; microsecond : Z }.

Definition fields (d : datetime) : list Z :=
  [year d; month d; day d; hour d; minute d; second d; microsecond d].

Fixpoint lex_compare (a b : list Z) : comparison :=
  match a, b with
  | x :: a', y :: b' =>
      match x ?= y with
      | Eq => lex_compare a' b'
      | c => c
      end
  | [], [] => Eq
  | [], _ :: _ => Lt
  | _ :: _, [] => Gt
  end.

Definition datetime_compare (a b : datetime) : comparison :=
  lex_compare (fields a) (fields b).

(** [a >= b] *)
Definition datetime_ge (a b : datetime) : bool :=
  match datetime_compare a b with
  | Lt => false
  | _ => true
  end.

(** [a < b] *)
Definition datetime_lt (a b : datetime) : bool := negb (datetime_ge a b).

Definition is_leap (y : Z) : bool :=
  (y mod 4 =? 0) && (negb (y mod 100 =? 0) || (y mod 400 =? 0)).

Definition days_in_month (y m : Z) : Z :=
  if m =? 2 then (if is_leap y then 29 else 28)
  else if (m =? 4) || (m =? 6) || (m =? 9) || (m =? 11) then 30
  else 31.

(** [datetime(y, m, d) - timedelta(days=1)]: midnight of the calendar day
    before [y-m-d]. *)
Definition previous_day_midnight (y m d : Z) : datetime :=
  if 1 <? d then mkDatetime y m (d - 1) 0 0 0 0
  else if 1 <? m then mkDatetime y (m - 1) (days_in_month y (m - 1)) 0 0 0 0
  else mkDatetime (y - 1) 12 31 0 0 0 0.

(** Lines 107-108: [yesterday_midnight] as a function of [now]. *)
Definition yesterday_midnight (now : datetime) : datetime :=
  previous_day_midnight (year now) (month now) (day now).

(** ** Feeds *)

(** The leading six fields of a [time.struct_time], which is what
    [published_parsed[:6]] keeps. feedparser normalises the tuples it stores,
    so the [datetime] constructor of line 43 is taken to accept them. *)
Record struct_time : Type := mkTime {
  tm_year : Z; tm_mon : Z; tm_mday : Z;
  tm_hour : Z; tm_min : Z; tm_sec : Z }.

(** Line 43: the [datetime] built from the six leading fields. *)
Definition datetime_of (t : struct_time) : datetime :=
  mkDatetime (tm_year t) (tm_mon t) (tm_mday t)
             (tm_hour t) (tm_min t) (tm_sec t) 0.

(** A feedparser entry is a dictionary; a field is [None] when the key is
    absent. [published_parsed] is two-level: the key may be absent ([None]),
    or present and holding Python's [None] ([Some None]), which is what
    feedparser stores when the feed gives a publication date that none of
    its date handlers can parse. *)
Record entry : Type := mkEntry {
  title : option string;
  link : option string;
  summary : option string;
  published_parsed : option (option struct_time) }.

Record feed : Type := mkFeed { entries : list entry }.

(** The tuple [(entry.title, entry.link, summary)] of line 50. *)
Definition matched : Type := (string * string * string)%type.

(** ** The libraries *)

(** What the script uses of its libraries:
    - [re.search(pattern, s)] compiles [pattern] ([None] when that raises
      [re.error]) and searches [s] with the compiled pattern;
    - [BeautifulSoup(raw, "html.parser").get_text()];
    - [html.unescape]. *)
Record pylib : Type := mkLib {
  regex : Type;
  re_compile : string -> option regex;
  regex_search : regex -> string -> bool;
  soup_get_text : string -> string;
  html_unescape : string -> string }.

(** ** Python's [str.strip()] *)

(** [str.isspace] on one character, for the characters below 128. *)
Definition is_space (c : ascii) : bool :=
  let n := Z.of_nat (nat_of_ascii c) in
  ((9 <=? n) && (n <=? 13)) || ((28 <=? n) && (n <=? 32)).

Fixpoint lstrip (s : string) : string :=
  match s with
  | EmptyString => EmptyString
  | String c r => if is_space c then lstrip r else s
  end.

(** Strips the right end: a space is dropped when all that follows it is
    dropped too. *)
Fixpoint rstrip (s : string) : string :=
  match s with
  | EmptyString => EmptyString
  | String c r =>
      match rstrip r with
      | EmptyString => if is_space c then EmptyString else String c EmptyString
      | r' => String c r'
      end
  end.

Definition strip (s : string) : string := rstrip (lstrip s).

(** ** Decimal output *)

Definition digit_char (d : Z) : ascii := ascii_of_nat (48 + Z.to_nat d).

(** [n] written with exactly [width] decimal digits (the low ones). *)
Fixpoint zero_padded (width : nat) (n : Z) : string :=
  match width with
  | O => EmptyString
  | S w => (zero_padded w (n / 10)
            ++ String (digit_char (n mod 10)) EmptyString)%string
  end.

(** [now.strftime("%Y-%m-%d")] *)
Definition strftime_ymd (d : datetime) : string :=
  (zero_padded 4 (year d) ++ "-" ++ zero_padded 2 (month d) ++ "-"
   ++ zero_padded 2 (day d))%string.

(** ** A fragment of [re] *)

(** Python's [re], on characters below 128, for the patterns built from
    literal characters, [.],
    grouping, [|], the repeats [*], [+], [?] with their lazy forms, and
    backslash before a character that is neither a letter nor a digit. Inside
    this fragment [compile] fails exactly where [re.compile] raises
    [re.error], and [search] is [re.search] without flags. A pattern that
    uses other syntax (classes, anchors, counted or possessive repeats,
    [(?...)] groups, letter escapes) is rejected by [compile]; the model makes
    no statement about it. *)
Module Re.

Inductive re : Type :=
| Void
| Eps
| Chr (c : ascii)
| Dot
| Cat (r s : re)
| Alt (r s : re)
| Star (r : re).

Fixpoint nullable (r : re) : bool :=
  match r with
  | Void | Chr _ | Dot => false
  | Eps | Star _ => true
  | Cat r s => nullable r && nullable s
  | Alt r s => nullable r || nullable s
  end.

Definition newline : ascii := ascii_of_nat 10.

(** Brzozowski derivative; [.] stands for any character but a newline. *)
Fixpoint deriv (a : ascii) (r : re) : re :=
  match r with
  | Void | Eps => Void
  | Chr c => if Ascii.eqb a c then Eps else Void
  | Dot => if Ascii.eqb a newline then Void else Eps
  | Cat r s =>
      if nullable r then Alt (Cat (deriv a r) s) (deriv a s)
      else Cat (deriv a r) s
  | Alt r s => Alt (deriv a r) (deriv a s)
  | Star r => Cat (deriv a r) (Star r)
  end.

(** Some prefix of [s] is matched by [r]. *)
Fixpoint match_here (r : re) (s : string) : bool :=
  nullable r ||
  match s with
  | EmptyString => false
  | String a t => match_here (deriv a r) t
  end.

(** Unanchored search: [r] matches at some position of [s]. *)
Fixpoint search (r : re) (s : string) : bool :=
  match_here r s ||
  match s with
  | EmptyString => false
  | String _ t => search r t
  end.

(** What may still follow the last atom read. *)
Inductive repeat_state : Type :=
| Plain        (* any repeat *)
| Repeated     (* only the lazy mark [?] *)
| Lazy.        (* nothing *)

(** A group being read: the alternation of the branches closed so far, the
    concatenation read in the current branch, and its last atom. *)
Record frame : Type := mkFrame {
  branches : re;
  prefix : re;
  last : option (re * repeat_state) }.

Definition empty_frame : frame := mkFrame Void Eps None.

Definition branch_of (f : frame) : re :=
  match last f with
  | None => prefix f
  | Some (a, _) => Cat (prefix f) a
  end.

Definition close (f : frame) : re := Alt (branches f) (branch_of f).

Definition push_atom (a : re) (f : frame) : frame :=
  mkFrame (branches f) (branch_of f) (Some (a, Plain)).

Record pstate : Type := mkState {
  escaped : bool;
  current : frame;
  stack : list frame }.

Definition is_alnum (c : ascii) : bool :=
  let n := Z.of_nat (nat_of_ascii c) in
  ((48 <=? n) && (n <=? 57)) || ((65 <=? n) && (n <=? 90))
  || ((97 <=? n) && (n <=? 122)).

Definition repeat (c : ascii) (a : re) : re :=
  if Ascii.eqb c "*" then Star a
  else if Ascii.eqb c "+" then Cat a (Star a)
  else Alt a Eps.

Definition is_repeat (c : ascii) : bool :=
  Ascii.eqb c "*" || Ascii.eqb c "+" || Ascii.eqb c "?".

Definition outside_fragment (c : ascii) : bool :=
  Ascii.eqb c "[" || Ascii.eqb c "{" || Ascii.eqb c "^" || Ascii.eqb c "$".

(** One character of the pattern; [None] is [re.error] (or a pattern outside
    the fragment). *)
Definition step (st : pstate) (c : ascii) : option pstate :=
  let f := current st in
  if escaped st then
    if is_alnum c then None
    else Some (mkState false (push_atom (Chr c) f) (stack st))
  else if Ascii.eqb c "\" then Some (mkState true f (stack st))
  else if Ascii.eqb c "(" then Some (mkState false empty_frame (f :: stack st))
  else if Ascii.eqb c ")" then
    match stack st with
    | [] => None                                   (* unbalanced parenthesis *)
    | outer :: rest => Some (mkState false (push_atom (close f) outer) rest)
    end
  else if Ascii.eqb c "|" then
    Some (mkState false (mkFrame (close f) Eps None) (stack st))
  else if is_repeat c then
    match last f with
    | None => None                                 (* nothing to repeat *)
    | Some (a, Plain) =>
        Some (mkState false
                (mkFrame (branches f) (prefix f) (Some (repeat c a, Repeated)))
                (stack st))
    | Some (a, Repeated) =>
        if Ascii.eqb c "?" then
          Some (mkState false
                  (mkFrame (branches f) (prefix f) (Some (a, Lazy)))
                  (stack st))
        else None                                  (* multiple repeat *)
    | Some (_, Lazy) => None                       (* multiple repeat *)
    end
  else if outside_fragment c then None
  else if Ascii.eqb c "." then
    Some (mkState false (push_atom Dot f) (stack st))
  else Some (mkState false (push_atom (Chr c) f) (stack st)).

Fixpoint parse (st : pstate) (p : string) : option re :=
  match p with
  | EmptyString =>
      if escaped st then None                      (* bad escape *)
      else match stack st with
           | [] => Some (close (current st))
           | _ :: _ => None                        (* missing parenthesis *)
           end
  | String c p' =>
      match step st c with
      | None => None
      | Some st' => parse st' p'
      end
  end.

Definition compile (p : string) : option re :=
  parse (mkState false empty_frame []) p.

End Re.

(** ** A fragment of Beautiful Soup's text extraction and of [html.unescape] *)

(** Both functions are modelled on a fragment of their input: text of
    characters below 128 in which
    - every [<] either is followed by something other than a letter, [/],
      [!] or [?] (it is then data), or opens a tag that ends at the next
      [>] (no [>] stands inside a quoted attribute value) and is not a
      [script], [style], [pre] or [textarea] tag; a [</] is followed by a
      letter;
    - every [&] either is followed by something other than a letter, a digit
      or [#] (it is then data), or begins one of [&amp;], [&lt;], [&gt;],
      [&quot;] or a decimal reference [&#n;] with [n] from 32 to 126, or is
      followed by a single letter that ends the input.
    The last case is where the parser and [html.unescape] differ: the parser
    of Python 3.11 ([goahead], the branch of an incomplete reference at the
    end of the input) skips the [&] and keeps the letter, while
    [html.unescape] keeps both. Input outside the fragment (comments,
    scripts, a [>] inside a quoted attribute, references without their
    semicolon, the rest
    of the entity table, references to characters from 128 on) is not
    modelled. *)
Module Html.

Inductive mode : Type :=
| Text
| Opening             (* just after [<] *)
| Tag                 (* inside a tag *)
| Ref (acc : string). (* after [&], the characters read since *)

Definition is_digit (c : ascii) : bool :=
  let n := Z.of_nat (nat_of_ascii c) in (48 <=? n) && (n <=? 57).

Definition is_letter (c : ascii) : bool :=
  let n := Z.of_nat (nat_of_ascii c) in
  ((65 <=? n) && (n <=? 90)) || ((97 <=? n) && (n <=? 122)).

Fixpoint decimal (acc : Z) (s : string) : option Z :=
  match s with
  | EmptyString => Some acc
  | String c r =>
      if is_digit c
      then decimal (10 * acc + (Z.of_nat (nat_of_ascii c) - 48)) r
      else None
  end.

Definition quote : ascii := ascii_of_nat 34.

(** The character a reference stands for, given the text between [&] and
    [;]. *)
Definition decode_ref (name : string) : option ascii :=
  if String.eqb name "amp" then Some "&"%char
  else if String.eqb name "lt" then Some "<"%char
  else if String.eqb name "gt" then Some ">"%char
  else if String.eqb name "quot" then Some quote
  else match name with
       | String "#" (String d ds) =>
           match decimal 0 (String d ds) with
           | Some n =>
               if (32 <=? n) && (n <=? 126)
               then Some (ascii_of_nat (Z.to_nat n)) else None
           | None => None
           end
       | _ => None
       end.

Definition one (c : ascii) : string := String c EmptyString.

(** A character read in text mode; [tags] tells whether [<] is markup. *)
Definition step_text (tags : bool) (c : ascii) : mode * string :=
  if Ascii.eqb c "&" then (Ref EmptyString, EmptyString)
  else if tags && Ascii.eqb c "<" then (Opening, EmptyString)
  else (Text, one c).

Definition step (tags : bool) (m : mode) (c : ascii) : mode * string :=
  match m with
  | Text => step_text tags c
  | Opening =>
      if is_letter c || Ascii.eqb c "/" then (Tag, EmptyString)
      else let (m', out) := step_text tags c in (m', ("<" ++ out)%string)
  | Tag => if Ascii.eqb c ">" then (Text, EmptyString) else (Tag, EmptyString)
  | Ref acc =>
      if Ascii.eqb c ";" then
        match decode_ref acc with
        | Some ch => (Text, one ch)
        | None => (Text, ("&" ++ acc ++ ";")%string)
        end
      else if is_letter c || is_digit c || Ascii.eqb c "#"
      then (Ref (acc ++ one c)%string, EmptyString)
      else let (m', out) := step_text tags c in (m', ("&" ++ acc ++ out)%string)
  end.

(** What is pending at the end of the input, kept as it stands. *)
Definition flush (m : mode) : string :=
  match m with
  | Text | Tag => EmptyString
  | Opening => "<"
  | Ref acc => ("&" ++ acc)%string
  end.

(** [html.unescape(text)]: one pass, no markup. *)
Fixpoint scan (m : mode) (s : string) : string :=
  match s with
  | EmptyString => flush m
  | String c r => let (m', out) := step false m c in (out ++ scan m' r)%string
  end.

Definition unescape (text : string) : string := scan Text text.

(** What the parser makes of the end of the input: an [&] followed by a
    single letter is an incomplete reference whose [&] is skipped, the
    letter being handed over as data; anything else that is pending is
    data as it stands. *)
Definition finish (m : mode) : string :=
  match m with
  | Ref (String c EmptyString) => if is_letter c then one c else flush m
  | _ => flush m
  end.

(** The text nodes the parser builds: the data read since the last tag is
    one node, closed when a tag opens and at the end of the input. *)
Fixpoint nodes (m : mode) (node : string) (s : string) : list string :=
  match s with
  | EmptyString => [(node ++ finish m)%string]
  | String c r =>
      let (m', out) := step true m c in
      match m, m' with
      | Opening, Tag => node :: nodes Tag EmptyString r
      | _, _ => nodes m' (node ++ out)%string r
      end
  end.

(** Beautiful Soup's [ASCII_SPACES]. *)
Definition ascii_space (c : ascii) : bool :=
  let n := Z.of_nat (nat_of_ascii c) in
  (n =? 32) || (n =? 10) || (n =? 9) || (n =? 12) || (n =? 13).

Fixpoint all_spaces (s : string) : bool :=
  match s with
  | EmptyString => true
  | String c r => ascii_space c && all_spaces r
  end.

Fixpoint has_newline (s : string) : bool :=
  match s with
  | EmptyString => false
  | String c r => (Z.of_nat (nat_of_ascii c) =? 10) || has_newline r
  end.

Definition newline : string := String (ascii_of_nat 10) EmptyString.

(** [endData]: a node made of white space only is stored as one newline if
    it holds a newline, and as one space otherwise. *)
Definition collapse (node : string) : string :=
  match node with
  | EmptyString => EmptyString
  | String _ _ =>
      if all_spaces node
      then (if has_newline node then newline else " ")
      else node
  end.

Fixpoint join (parts : list string) : string :=
  match parts with
  | [] => EmptyString
  | part :: rest => (part ++ join rest)%string
  end.

(** [BeautifulSoup(raw, "html.parser").get_text()] *)
Definition get_text (raw : string) : string :=
  join (map collapse (nodes Text EmptyString raw)).

End Html.

(** The libraries, on their fragments. *)
Definition frag : pylib :=
  mkLib Re.compile Re.search Html.get_text Html.unescape.

(** ** The program *)

Section Program.

Variable L : pylib.

(** Lines 53-65 *)
Definition clean_html (raw_html : string) : string :=
  let text := soup_get_text L raw_html in
  html_unescape L text.

(** [entry.<name>]: feedparser raises [AttributeError] for a missing key. *)
Definition getattr (name : string) (field : option string) : result string :=
  match field with
  | Some v => Ok v
  | None => Raise (AttributeError name)
  end.

(** [re.search(keyword, entry_content)], as a truth value. *)
Definition re_search (keyword entry_content : string) : result bool :=
  match re_compile L keyword with
  | Some p => Ok (regex_search L p entry_content)
  | None => Raise (ReError keyword)
  end.

(** Line 47: [any] over the generator stops at the first keyword that
    matches, and a keyword is compiled only when it is reached. *)
Fixpoint any_search (keywords : list string) (entry_content : string)
  : result bool :=
  match keywords with
  | [] => Ok false
  | keyword :: rest =>
      hit <- re_search keyword entry_content ;;
      if hit then Ok true else any_search rest entry_content
  end.

(** [entry.published_parsed[:6]]: subscripting [None] raises. *)
Definition first_six (v : option struct_time) : result struct_time :=
  match v with
  | Some t => Ok t
  | None => Raise TypeError
  end.

(** Lines 42-50: the body of the loop, for one entry. *)
Definition visit (start_time : datetime) (keywords : list string)
  (e : entry) (recent_entries : list matched) : result (list matched) :=
  match published_parsed e with
  | None => Ok recent_entries
  | Some v =>
      t <- first_six v ;;
      let pub_date := datetime_of t in
      if datetime_ge pub_date start_time then
        title0 <- getattr "title" (title e) ;;
        summary0 <- getattr "summary" (summary e) ;;
        let entry_content := (title0 ++ " " ++ summary0)%string in
        hit <- any_search keywords entry_content ;;
        if hit then
          let summary1 :=
            match summary e with
            | Some s => s
            | None => "No summary available"
            end in
          let summary2 := clean_html summary1 in
          title1 <- getattr "title" (title e) ;;
          link1 <- getattr "link" (link e) ;;
          Ok (recent_entries ++ [(title1, link1, summary2)])
        else Ok recent_entries
      else Ok recent_entries
  end.

Fixpoint visit_all (start_time : datetime) (keywords : list string)
  (es : list entry) (recent_entries : list matched) : result (list matched) :=
  match es with
  | [] => Ok recent_entries
  | e :: rest =>
      recent_entries' <- visit start_time keywords e recent_entries ;;
      visit_all start_time keywords rest recent_entries'
  end.

(** Lines 28-51 *)
Definition get_recent_entries (f : feed) (start_time : datetime)
  (keywords : list string) : result (list matched) :=
  visit_all start_time keywords (entries f) [].

(** ** The world of a run *)

(** A path that is a regular file either cannot be read ([open] or the read
    raises [IOError]) or holds lines. *)
Inductive file : Type :=
| Unreadable (err : string)
| Lines (lines : list string).

(** [requests.get(url)] either raises or answers with a status code; the
    body of the answer is given as the feed [feedparser.parse] makes of
    it. *)
Inductive response : Type :=
| Failed (msg : string)
| Response (status_code : Z) (parsed : feed).

Record world : Type := mkWorld {
  fs : string -> option file;
  clock : datetime;               (* what [datetime.now()] returns *)
  http : string -> response }.

(** What [print] shows: a text, or the text of an exception. *)
Inductive printed : Type :=
| Said (text : string)
| SaidExn (e : exn).

(** The effects of a run: the console, the URLs given to [requests.get], and
    the report file (its name and the strings written to it), if the run
    opened one. Opening and writing the report file are taken to succeed. *)
Record run : Type := mkRun {
  console : list printed;
  requested : list string;
  report : option (string * list string) }.

Definition isfile (w : world) (filename : string) : bool :=
  match fs w filename with
  | Some _ => true
  | None => false
  end.

(** Lines 67-87: the keywords, and what was printed. *)
Definition read_keywords (w : world) (filename : string)
  : list string * list printed :=
  match fs w filename with
  | None =>
      ([], [Said ("O arquivo " ++ filename ++ " não foi encontrado.")%string])
  | Some (Lines lines) => (map strip lines, [])
  | Some (Unreadable err) =>
      ([], [Said ("Ocorreu um erro ao ler o arquivo " ++ filename ++ ": "
                  ++ err)%string])
  end.

(** Lines 9-26 *)
Definition get_rss_feed (w : world) (url : string) : result feed :=
  match http w url with
  | Failed msg => Raise (RequestException msg)
  | Response status_code parsed =>
      if status_code =? 200 then Ok parsed else Raise (StatusError status_code)
  end.

Definition nl : string := String (ascii_of_nat 10) EmptyString.

(** Lines 125-128: what is written for one match. *)
Definition entry_block (m : matched) : list string :=
  let '(title0, link0, summary0) := m in
  [("Título: " ++ title0 ++ nl)%string;
   ("Link: " ++ link0 ++ nl)%string;
   ("Resumo: " ++ summary0 ++ nl)%string;
   nl].

(** Lines 122-128 *)
Definition feed_block (url : string) (recent_entries : list matched)
  : list string :=
  match recent_entries with
  | [] => []
  | _ :: _ => ("URL: " ++ url ++ nl)%string :: flat_map entry_block recent_entries
  end.

(** The state of the loop of line 117: console, requests, and the strings
    written to the report so far. *)
Record loop_state : Type := mkLoop {
  shown : list printed;
  fetched : list string;
  written : list string }.

(** Lines 118-131: one line of the URL file. *)
Definition process_line (w : world) (start_time : datetime)
  (keywords : list string) (st : loop_state) (line : string) : loop_state :=
  let url := strip line in
  let attempt :=
    f <- get_rss_feed w url ;;
    get_recent_entries f start_time keywords in
  match attempt with
  | Ok recent_entries =>
      mkLoop (shown st) (fetched st ++ [url])
             (written st ++ feed_block url recent_entries)
  | Raise e =>
      mkLoop (shown st ++ [Said ("Falha ao processar URL: " ++ url)%string;
                           SaidExn e])
             (fetched st ++ [url])
             (written st)
  end.

Definition no_keywords : printed :=
  Said "Nenhuma palavra-chave encontrada para filtrar as notícias.".

(** Line 110 *)
Definition output_filename (now : datetime) : string :=
  ("resenha_" ++ strftime_ymd now ++ ".txt")%string.

(** Line 113: the first string written to the report. *)
Definition header (now : datetime) : string :=
  ("Resenha diária do dia " ++ strftime_ymd now ++ nl ++ nl)%string.

Definition io_error (filename err : string) : printed :=
  Said ("Ocorreu um erro ao ler o arquivo " ++ filename ++ ": " ++ err)%string.

(** Lines 89-133 *)
Definition process_rss_file (w : world) (rss_filename keywords_filename : string)
  : run :=
  if negb (isfile w rss_filename) then
    mkRun [Said ("O arquivo " ++ rss_filename ++ " não foi encontrado.")%string]
          [] None
  else
    let (keywords, said) := read_keywords w keywords_filename in
    match keywords with
    | [] => mkRun (said ++ [no_keywords]) [] None
    | _ :: _ =>
        let now := clock w in
        let yesterday := yesterday_midnight now in
        match fs w rss_filename with
        | Some (Lines lines) =>
            let st := fold_left (process_line w yesterday keywords) lines
                                (mkLoop said [] [header now]) in
            mkRun (shown st) (fetched st)
                  (Some (output_filename now, written st))
        | Some (Unreadable err) =>
            mkRun (said ++ [io_error rss_filename err])
                  [] (Some (output_filename now, [header now]))
        | None =>
            mkRun (said ++ [io_error rss_filename "No such file or directory"])
                  [] (Some (output_filename now, [header now]))
        end
    end.

End Program.

(** ** Vocabulary of the specification *)

(** The publish time of an entry, when it has a parsed one. *)
Definition pub_date (e : entry) : option datetime :=
  match published_parsed e with
  | Some (Some t) => Some (datetime_of t)
  | _ => None
  end.

(** The entry has a publish time at or after the threshold. *)
Definition time_eligible (start_time : datetime) (e : entry) : bool :=
  match pub_date e with
  | Some d => datetime_ge d start_time
  | None => false
  end.

Definition text_of (field : option string) : string :=
  match field with
  | Some v => v
  | None => EmptyString
  end.

(** The concatenation of title and summary that the keywords are searched
    in. *)
Definition search_buffer (e : entry) : string :=
  (text_of (title e) ++ " " ++ text_of (summary e))%string.

(** The keyword is a valid pattern. *)
Definition compiles (L : pylib) (keyword : string) : Prop :=
  re_compile L keyword <> None.

(** The keyword, as a pattern, matches somewhere in the buffer. *)
Definition matches (L : pylib) (buffer keyword : string) : bool :=
  match re_compile L keyword with
  | Some p => regex_search L p buffer
  | None => false
  end.

(** At least one keyword matches in the search buffer of the entry. *)
Definition keyword_hit (L : pylib) (keywords : list string) (e : entry) : bool :=
  existsb (matches L (search_buffer e)) keywords.

(** The MatchedEntry of an entry that carries title, link and summary. *)
Definition matched_of (L : pylib) (e : entry) : matched :=
  (text_of (title e), text_of (link e), clean_html L (text_of (summary e))).



(** Fetching and filtering one URL: the [try] block of lines 120-121. *)
Definition attempt (L : pylib) (w : world) (start_time : datetime)
  (keywords : list string) (url : string) : result (list matched) :=
  f <- get_rss_feed w url ;;
  get_recent_entries L f start_time keywords.

(** What one line of the URL file adds to the console. *)
Definition line_shown (L : pylib) (w : world) (start_time : datetime)
  (keywords : list string) (line : string) : list printed :=
  match attempt L w start_time keywords (strip line) with
  | Ok _ => []
  | Raise e => [Said ("Falha ao processar URL: " ++ strip line)%string; SaidExn e]
  end.

(** What one line of the URL file adds to the report. *)
Definition line_written (L : pylib) (w : world) (start_time : datetime)
  (keywords : list string) (line : string) : list string :=
  match attempt L w start_time keywords (strip line) with
  | Ok recent_entries => feed_block (strip line) recent_entries
  | Raise _ => []
  end.





(** A text made of references only, given by the names between [&] and
    [;]. *)
Fixpoint encode (names : list string) : string :=
  match names with
  | [] => EmptyString
  | name :: rest => ("&" ++ name ++ ";" ++ encode rest)%string
  end.

(** The characters the references stand for. *)
Fixpoint decode_all (names : list string) : option string :=
  match names with
  | [] => Some EmptyString
  | name :: rest =>
      match Html.decode_ref name, decode_all rest with
      | Some c, Some text => Some (String c text)
      | _, _ => None
      end
  end.






(** ** Vocabulary of further properties *)

(** The loop body returns on the entry: its stored publish time is not
    [None] and, if it is at or after the threshold, it has title and
    summary, the keyword search answers, and it has a link when a keyword
    matches. *)
Definition visitable (L : pylib) (start_time : datetime)
  (keywords : list string) (e : entry) : Prop :=
  published_parsed e <> Some None /\
  (time_eligible start_time e = true ->
   title e <> None /\ summary e <> None /\
   (exists b, any_search L keywords (search_buffer e) = Ok b) /\
   (keyword_hit L keywords e = true -> link e <> None)).

(** The keyword is a valid pattern that does not match in the buffer. *)
Definition misses (L : pylib) (buffer keyword : string) : Prop :=
  compiles L keyword /\ matches L buffer keyword = false.


(** The text begins with white space. *)
Definition head_space (s : string) : bool :=
  match s with
  | EmptyString => false
  | String c _ => is_space c
  end.

(** The text ends with white space. *)
Fixpoint last_space (s : string) : bool :=
  match s with
  | EmptyString => false
  | String c r =>
      match r with
      | EmptyString => is_space c
      | String _ _ => last_space r
      end
  end.

Definition trimmed (s : string) : Prop :=
  head_space s = false /\ last_space s = false.

(** The text ends with a newline. *)
Fixpoint ends_with_newline (s : string) : bool :=
  match s with
  | EmptyString => false
  | String c r =>
      match r with
      | EmptyString => Ascii.eqb c (ascii_of_nat 10)
      | String _ _ => ends_with_newline r
      end
  end.

(** Every character of the text is below 128. *)
Fixpoint ascii_only (s : string) : bool :=
  match s with
  | EmptyString => true
  | String c r => (Z.of_nat (nat_of_ascii c) <? 128) && ascii_only r
  end.

(** Year, month and day fit the four and two digits of the report name. *)
Definition fits_digits (d : datetime) : Prop :=
  0 <= year d < 10000 /\ 0 <= month d < 100 /\ 0 <= day d < 100.

(** ** Sample inputs *)

Module Sample.

(** A run started on 1 March 2024 at 10:30; its threshold is midnight of
    29 February. *)
Definition now : datetime := mkDatetime 2024 3 1 10 30 0 0.

Definition threshold : datetime := yesterday_midnight now.

Definition at_threshold : struct_time := mkTime 2024 2 29 0 0 0.
Definition before_threshold : struct_time := mkTime 2024 2 28 23 59 59.
Definition after_now : struct_time := mkTime 2024 3 2 8 0 0.

Definition item (title0 : string) (summary0 : option string)
  (published : option (option struct_time)) : entry :=
  mkEntry (Some title0) (Some "http://example.org/item") summary0 published.

(** The entry of the scenario of the specification. *)
Definition bitcoin : entry :=
  item "Bitcoin rises" (Some "<p>Price up &amp; stable</p>")
       (Some (Some at_threshold)).

Definition weather : entry :=
  item "Rain tomorrow" (Some "Clouds") (Some (Some at_threshold)).

Definition stale : entry :=
  item "Bitcoin fell" (Some "Last week") (Some (Some before_threshold)).


Definition future : entry := item "a" (Some "b") (Some (Some after_now)).

(** An item without a description. *)
Definition no_summary : entry :=
  item "Bitcoin rises" None (Some (Some at_threshold)).

(** An item whose publication date feedparser could not parse. *)
Definition unparsed_date : entry := item "Bitcoin rises" (Some "b") (Some None).

(** An item without a publication date. *)
Definition undated : entry := item "Bitcoin rises" (Some "b") None.

Definition url_file : string := "url.txt".
Definition keyword_file : string := "filtro.txt".

Definition line (s : string) : string := (s ++ nl)%string.

(** A world with the two input files and a table of answers. *)
Definition world_of (urls : option file) (keywords : option file)
  (answers : list (string * response)) : world :=
  mkWorld
    (fun name => if String.eqb name url_file then urls
                 else if String.eqb name keyword_file then keywords
                 else None)
    now
    (fun url =>
       match find (fun a => String.eqb (fst a) url) answers with
       | Some a => snd a
       | None => Failed "Name or service not known"
       end).

Definition good_url : string := "http://news.example.org/rss".
Definition gone_url : string := "http://gone.example.org/rss".

(** The scenario of the specification: one URL answers 404, the other a
    feed with a matching entry. *)
Definition two_feeds : world :=
  world_of (Some (Lines [line gone_url; line good_url]))
           (Some (Lines [line "Bitcoin"]))
           [(gone_url, Response 404 (mkFeed []));
            (good_url, Response 200 (mkFeed [bitcoin; weather; stale]))].

(** A feed with one entry, behind [good_url], and the given keyword
    lines. *)
Definition one_feed (e : entry) (keyword_lines : list string) : world :=
  world_of (Some (Lines [line good_url]))
           (Some (Lines (map line keyword_lines)))
           [(good_url, Response 200 (mkFeed [e]))].




(** The URL list exists but cannot be read. *)
Definition unreadable_urls : world :=
  world_of (Some (Unreadable "Permission denied"))
           (Some (Lines [line "Bitcoin"])) [].

(** Noon of the day of the threshold. *)
Definition noon : datetime := mkDatetime 2024 2 29 12 0 0 0.

Definition at_noon : struct_time := mkTime 2024 2 29 12 0 0.

Definition rain : entry :=
  item "Rain at noon" (Some "Showers") (Some (Some at_noon)).


(** The text [&amp;lt;] written with references only. *)
Definition twice_escaped : list string :=
  ["amp"; "#97"; "#109"; "#112"; "#59"; "#108"; "#116"; "#59"].

End Sample.

(** * Properties *)

Section FilterProperties.

Variable L : pylib.
Variable start_time : datetime.

Lemma re_search_compiles (k c : string) :
  compiles L k -> re_search L k c = Ok (matches L c k).
Proof.
  unfold compiles, re_search, matches.
  destruct (re_compile L k); congruence.
Qed.


(** With valid patterns only, [any] is the disjunction of the searches. *)
Lemma any_search_valid (keywords : list string) (c : string) :
  Forall (compiles L) keywords ->
  any_search L keywords c = Ok (existsb (matches L c) keywords).
Proof.
  induction 1 as [|k ks Hk _ IH]; simpl.
  - reflexivity.
  - rewrite (re_search_compiles c Hk). simpl.
    destruct (matches L c k); simpl; [reflexivity | exact IH].
Qed.



Lemma time_eligible_parsed (e : entry) (t : struct_time) :
  published_parsed e = Some (Some t) ->
  time_eligible start_time e = datetime_ge (datetime_of t) start_time.
Proof.
  unfold time_eligible, pub_date. intros ->. reflexivity.
Qed.











Lemma lex_compare_refl (l : list Z) : lex_compare l l = Eq.
Proof.
  induction l as [|x l IH]; simpl; [reflexivity|].
  now rewrite Z.compare_refl.
Qed.

(** The lower end of the window is inclusive. *)
Lemma threshold_is_inclusive (d : datetime) : datetime_ge d d = true.
Proof.
  unfold datetime_ge, datetime_compare. now rewrite lex_compare_refl.
Qed.

Lemma published_at_threshold_is_eligible (e : entry) (t : struct_time) :
  published_parsed e = Some (Some t) ->
  datetime_of t = start_time ->
  time_eligible start_time e = true.
Proof.
  intros Hpp Ht. rewrite (time_eligible_parsed e Hpp), Ht.
  apply threshold_is_inclusive.
Qed.

(** An entry that a returning turn of the loop leaves out or takes in: when
    it is time-eligible, it has a summary. *)
Lemma visit_returns_summary (keywords : list string) (e : entry)
  (acc acc' : list matched) :
  visit L start_time keywords e acc = Ok acc' ->
  time_eligible start_time e = true ->
  summary e <> None.
Proof.
  unfold visit, time_eligible, pub_date.
  destruct (published_parsed e) as [[t|]|]; simpl; try discriminate.
  intros H Hel. rewrite Hel in H.
  destruct (title e); simpl in H; [|discriminate].
  destruct (summary e); simpl in H; [discriminate|discriminate].
Qed.

Lemma visit_all_returns_summaries (keywords : list string) (es : list entry) :
  forall acc recent_entries,
    visit_all L start_time keywords es acc = Ok recent_entries ->
    forall e, In e es -> time_eligible start_time e = true ->
              summary e <> None.
Proof.
  induction es as [|e0 es IH]; intros acc recent_entries H e Hin Hel.
  - contradiction.
  - simpl in H.
    destruct (visit L start_time keywords e0 acc) as [acc'|x] eqn:Hv;
      simpl in H; [|discriminate].
    destruct Hin as [<-|Hin].
    + exact (visit_returns_summary _ _ _ Hv Hel).
    + exact (IH _ _ H e Hin Hel).
Qed.

(** Whenever the filter returns, every time-eligible entry of the feed has
    a summary: the placeholder of line 48 is never stored. *)
Lemma summary_placeholder_unreachable (f : feed) (keywords : list string)
  (recent_entries : list matched) :
  get_recent_entries L f start_time keywords = Ok recent_entries ->
  forall e, In e (entries f) -> time_eligible start_time e = true ->
            summary e <> None.
Proof.
  unfold get_recent_entries. apply visit_all_returns_summaries.
Qed.

Lemma visit_all_undated (keywords : list string) (es : list entry) :
  Forall (fun e => published_parsed e = None) es ->
  forall acc, visit_all L start_time keywords es acc = Ok acc.
Proof.
  induction 1 as [|e es He _ IH]; intros acc; simpl; [reflexivity|].
  unfold visit. rewrite He. simpl. apply IH.
Qed.

(** A feed whose entries all lack the [published_parsed] key gives no
    match, whatever the keywords and the content of the entries. *)
Lemma undated_entries_are_skipped (f : feed) (keywords : list string) :
  Forall (fun e => published_parsed e = None) (entries f) ->
  get_recent_entries L f start_time keywords = Ok [].
Proof.
  intros H. unfold get_recent_entries. now apply visit_all_undated.
Qed.

(** An entry published before the threshold is not time-eligible. *)
Lemma before_threshold_not_eligible (e : entry) (t : struct_time) :
  published_parsed e = Some (Some t) ->
  datetime_lt (datetime_of t) start_time = true ->
  time_eligible start_time e = false.
Proof.
  intros Hpp Hlt. rewrite (time_eligible_parsed e Hpp).
  unfold datetime_lt in Hlt. now apply negb_true_iff in Hlt.
Qed.

End FilterProperties.

Section RunProperties.

Variable L : pylib.

(** The loop of line 117 in closed form: every line adds what its own
    attempt yields, whatever happened to the lines before it. *)
Lemma fold_process_line (w : world) (start_time : datetime)
  (keywords lines : list string) :
  forall st,
    fold_left (process_line L w start_time keywords) lines st
    = mkLoop (shown st ++ flat_map (line_shown L w start_time keywords) lines)
             (fetched st ++ map strip lines)
             (written st ++ flat_map (line_written L w start_time keywords) lines).
Proof.
  induction lines as [|line lines IH]; intros [sh fe wr]; simpl.
  - now rewrite !app_nil_r.
  - rewrite IH. unfold process_line, line_shown, line_written, attempt.
    destruct (bind (get_rss_feed w (strip line)) _) as [recent|e]; simpl;
      rewrite <- ?app_assoc; simpl; now rewrite ?app_nil_r.
Qed.

Lemma read_keywords_quiet (w : world) (filename : string) :
  fst (read_keywords w filename) <> [] -> snd (read_keywords w filename) = [].
Proof.
  unfold read_keywords. destruct (fs w filename) as [[err|lines]|]; simpl;
    congruence.
Qed.


(** A run that reaches the loop, in closed form. *)
Lemma process_rss_file_loop (w : world) (rss_filename keywords_filename : string)
  (lines : list string) :
  fs w rss_filename = Some (Lines lines) ->
  fst (read_keywords w keywords_filename) <> [] ->
  process_rss_file L w rss_filename keywords_filename
  = let start_time := yesterday_midnight (clock w) in
    let keywords := fst (read_keywords w keywords_filename) in
    mkRun (flat_map (line_shown L w start_time keywords) lines)
          (map strip lines)
          (Some (output_filename (clock w),
                 header (clock w)
                 :: flat_map (line_written L w start_time keywords) lines)).
Proof.
  intros Hrss Hkw. pose proof (read_keywords_quiet _ _ Hkw) as Hquiet.
  unfold process_rss_file, isfile. rewrite Hrss. simpl.
  destruct (read_keywords w keywords_filename) as [keywords said].
  simpl in *. subst said.
  destruct keywords as [|k ks]; [congruence|].
  now rewrite fold_process_line.
Qed.

(** With zero keywords no URL is requested and no report file is opened,
    whether or not the URL list file exists. *)
Lemma no_keywords_never_fetches
  (w : world) (rss_filename keywords_filename : string) :
  fst (read_keywords w keywords_filename) = [] ->
  requested (process_rss_file L w rss_filename keywords_filename) = []
  /\ report (process_rss_file L w rss_filename keywords_filename) = None.
Proof.
  intros Hkw. unfold process_rss_file.
  destruct (isfile w rss_filename); simpl; [|now split].
  destruct (read_keywords w keywords_filename) as [keywords said].
  simpl in Hkw. subst keywords. now split.
Qed.


(** What the report gets for a line whose attempt returns: nothing when no
    entry matched, and otherwise the line with the URL followed, for each
    match in order, by its title, link, summary and an empty line. *)
Lemma line_written_block (w : world) (start_time : datetime)
  (keywords : list string) (line : string) (recent_entries : list matched) :
  attempt L w start_time keywords (strip line) = Ok recent_entries ->
  line_written L w start_time keywords line
  = match recent_entries with
    | [] => []
    | _ :: _ =>
        ("URL: " ++ strip line ++ nl)%string
        :: flat_map (fun m => [("Título: " ++ fst (fst m) ++ nl)%string;
                               ("Link: " ++ snd (fst m) ++ nl)%string;
                               ("Resumo: " ++ snd m ++ nl)%string;
                               nl])
                    recent_entries
    end.
Proof.
  intros H. unfold line_written. rewrite H.
  destruct recent_entries as [|m ms]; [reflexivity|].
  unfold feed_block. f_equal. apply flat_map_ext.
  intros [[title0 link0] summary0]. reflexivity.
Qed.

(** C6. In a run that reaches the loop (the URL list is readable and there
    are keywords), every line of the URL list is requested, in order; a line
    whose fetch or filter raises adds the failure notice with its URL and
    the exception to the console and nothing to the report, and the lines
    after it are processed all the same; the report holds the header and,
    in order, one block per line that succeeded with at least one match,
    and nothing else: a line that succeeds adds nothing to the console and,
    when it has matches, its block (the URL, then title, link, summary and
    an empty line for each match); a line that succeeds without a match
    adds nothing. A status other than 200 and an exception of the request
    are failures. *)
Theorem one_feed_failure_never_aborts
  (w : world) (rss_filename keywords_filename : string) (lines : list string) :
  fs w rss_filename = Some (Lines lines) ->
  fst (read_keywords w keywords_filename) <> [] ->
  let start_time := yesterday_midnight (clock w) in
  let keywords := fst (read_keywords w keywords_filename) in
  process_rss_file L w rss_filename keywords_filename
  = mkRun (flat_map (line_shown L w start_time keywords) lines)
          (map strip lines)
          (Some (output_filename (clock w),
                 header (clock w)
                 :: flat_map (line_written L w start_time keywords) lines))
  /\ (forall line e,
        attempt L w start_time keywords (strip line) = Raise e ->
        line_shown L w start_time keywords line
        = [Said ("Falha ao processar URL: " ++ strip line)%string; SaidExn e]
        /\ line_written L w start_time keywords line = [])
  /\ (forall line,
        line_written L w start_time keywords line <> [] ->
        exists recent_entries,
          attempt L w start_time keywords (strip line) = Ok recent_entries
          /\ recent_entries <> []
          /\ line_shown L w start_time keywords line = [])
  /\ (forall url status_code f,
        http w url = Response status_code f -> status_code <> 200 ->
        attempt L w start_time keywords url = Raise (StatusError status_code))
  /\ (forall url msg,
        http w url = Failed msg ->
        attempt L w start_time keywords url = Raise (RequestException msg))
  /\ (forall line recent_entries,
        attempt L w start_time keywords (strip line) = Ok recent_entries ->
        line_shown L w start_time keywords line = []
        /\ line_written L w start_time keywords line
           = match recent_entries with
             | [] => []
             | _ :: _ =>
                 ("URL: " ++ strip line ++ nl)%string
                 :: flat_map
                      (fun m => [("Título: " ++ fst (fst m) ++ nl)%string;
                                 ("Link: " ++ snd (fst m) ++ nl)%string;
                                 ("Resumo: " ++ snd m ++ nl)%string;
                                 nl])
                      recent_entries
             end)
  /\ (forall url f,
        http w url = Response 200 f ->
        attempt L w start_time keywords url
        = get_recent_entries L f start_time keywords).
Proof.
  intros Hrss Hkw start_time keywords.
  split; [|split; [|split; [|split; [|split; [|split]]]]].
  - now apply process_rss_file_loop.
  - intros line e H. unfold line_shown, line_written. now rewrite H.
  - intros line H. unfold line_written, line_shown in *.
    destruct (attempt L w start_time keywords (strip line)) as [recent|e].
    + exists recent. repeat split; auto. intros ->. now apply H.
    + congruence.
  - intros url status_code f Hhttp Hne. unfold attempt, get_rss_feed.
    rewrite Hhttp. apply Z.eqb_neq in Hne. now rewrite Hne.
  - intros url msg Hhttp. unfold attempt, get_rss_feed. now rewrite Hhttp.
  - intros line recent_entries H. split.
    + unfold line_shown. now rewrite H.
    + now apply line_written_block.
  - intros url f Hhttp. unfold attempt, get_rss_feed. now rewrite Hhttp.
Qed.

End RunProperties.

Section InvalidKeyword.

Variable L : pylib.


End InvalidKeyword.

Section Cleaner.

Import Html.


Lemma append_assoc (s t u : string) :
  ((s ++ t) ++ u)%string = (s ++ t ++ u)%string.
Proof.
  induction s as [|c r IH]; simpl; [reflexivity | now rewrite IH].
Qed.

(** *** [html.unescape] *)





(** *** The text nodes *)




(** *** White space *)







(** *** Texts made of references *)







(** The table of references: the four names and the decimal references
    to the characters from 32 to 126. *)
Lemma decode_ref_cases (name : string) (ch : ascii) :
  decode_ref name = Some ch ->
  (name = "amp" /\ ch = "&"%char)
  \/ (name = "lt" /\ ch = "<"%char)
  \/ (name = "gt" /\ ch = ">"%char)
  \/ (name = "quot" /\ ch = quote)
  \/ (exists digits n,
        name = String "#" digits /\ digits <> EmptyString
        /\ decimal 0 digits = Some n /\ 32 <= n <= 126
        /\ ch = ascii_of_nat (Z.to_nat n)).
Proof.
  unfold decode_ref.
  destruct (String.eqb name "amp") eqn:H1;
    [apply String.eqb_eq in H1; intros [= <-]; now left|].
  destruct (String.eqb name "lt") eqn:H2;
    [apply String.eqb_eq in H2; intros [= <-]; now right; left|].
  destruct (String.eqb name "gt") eqn:H3;
    [apply String.eqb_eq in H3; intros [= <-]; now right; right; left|].
  destruct (String.eqb name "quot") eqn:H4;
    [apply String.eqb_eq in H4; intros [= <-]; now right; right; right; left|].
  destruct name as [|c r]; [discriminate|].
  destruct c as [[] [] [] [] [] [] [] []]; try discriminate.
  destruct r as [|d ds]; [discriminate|].
  destruct (decimal 0 (String d ds)) as [n|] eqn:Hdec; [|discriminate].
  destruct ((32 <=? n) && (n <=? 126)) eqn:Hrange; [|discriminate].
  intros [= <-]. right; right; right; right.
  exists (String d ds), n. apply andb_true_iff in Hrange as [Hlo Hhi].
  repeat split; try reflexivity; try discriminate; try assumption; lia.
Qed.


End Cleaner.

(** * The properties on sample inputs *)

Section Samples.

Import Sample.

Ltac evaluated := vm_compute; first [reflexivity | discriminate].



Example threshold_value : threshold = mkDatetime 2024 2 29 0 0 0 0.
Proof. reflexivity. Qed.

(** The day before, across the ends of months and years. *)
Example previous_day_samples :
  map (fun d => previous_day_midnight (year d) (month d) (day d))
      [mkDatetime 2024 3 1 0 0 0 0; mkDatetime 2023 3 1 0 0 0 0;
       mkDatetime 2100 3 1 0 0 0 0; mkDatetime 2000 3 1 0 0 0 0;
       mkDatetime 2024 1 1 0 0 0 0; mkDatetime 2024 5 1 0 0 0 0;
       mkDatetime 2024 5 17 0 0 0 0]
  = [mkDatetime 2024 2 29 0 0 0 0; mkDatetime 2023 2 28 0 0 0 0;
     mkDatetime 2100 2 28 0 0 0 0; mkDatetime 2000 2 29 0 0 0 0;
     mkDatetime 2023 12 31 0 0 0 0; mkDatetime 2024 4 30 0 0 0 0;
     mkDatetime 2024 5 16 0 0 0 0].
Proof. reflexivity. Qed.

(** The pattern fragment on the buffer [a b]: what [re.search] answers, and
    where [re.compile] raises. *)
Example re_fragment_samples :
  map (fun p => matches frag "a b" p)
      ["a"; "b a"; "A"; "a.b"; "a\.b"; "(a|c) b"; "(x|y)*b"; "a|"; "a*?"; "x+"]
  = [true; false; false; true; false; true; true; true; true; false]
  /\ map (re_compile frag) ["("; ")"; "*"; "a**"; "\"; "a("; "a?*"]
     = [None; None; None; None; None; None; None]
  /\ re_compile frag "" <> None.
Proof. repeat split; evaluated. Qed.

Example strip_samples :
  map strip [line "  Bitcoin "; nl; "a b"; EmptyString]
  = ["Bitcoin"; EmptyString; "a b"; EmptyString].
Proof. reflexivity. Qed.

(** Markup and white space between tags. *)
Example get_text_samples :
  map Html.get_text
      ["<p>Price up &amp; stable</p>"; "<p>a</p>   <p>b</p>"; "1 < 2";
       "<a href=x>t</a> u"; "   "]
  = ["Price up & stable"; "a b"; "1 < 2"; "t u"; " "].
Proof. reflexivity. Qed.

Example encode_twice_escaped :
  encode twice_escaped = "&amp;&#97;&#109;&#112;&#59;&#108;&#116;&#59;"
  /\ decode_all twice_escaped = Some "&amp;lt;".
Proof. split; reflexivity. Qed.

(** The scenario of the specification, run as a whole. *)
Example two_feeds_run :
  process_rss_file frag two_feeds url_file keyword_file
  = mkRun
      [Said ("Falha ao processar URL: " ++ gone_url); SaidExn (StatusError 404)]
      [gone_url; good_url]
      (Some ("resenha_2024-03-01.txt",
             [("Resenha diária do dia 2024-03-01" ++ nl ++ nl)%string;
              ("URL: " ++ good_url ++ nl)%string;
              ("Título: Bitcoin rises" ++ nl)%string;
              ("Link: http://example.org/item" ++ nl)%string;
              ("Resumo: Price up & stable" ++ nl)%string;
              nl])).
Proof. vm_compute. reflexivity. Qed.



(** C2: the code at an entry published after the start of the run. The
    window has no upper end: the entry is in the report. *)
Theorem entry_after_now_is_included :
  datetime_lt now (datetime_of after_now) = true
  /\ process_rss_file frag (one_feed future ["a"]) url_file keyword_file
     = mkRun [] [good_url]
         (Some ("resenha_2024-03-01.txt",
                [("Resenha diária do dia 2024-03-01" ++ nl ++ nl)%string;
                 ("URL: " ++ good_url ++ nl)%string;
                 ("Título: a" ++ nl)%string;
                 ("Link: http://example.org/item" ++ nl)%string;
                 ("Resumo: b" ++ nl)%string;
                 nl])).
Proof. split; evaluated. Qed.

(** C3: the code at an entry at the threshold without a summary, with any
    library and any keywords. Line 46 reads [entry.summary] before line 48
    can supply the placeholder. *)
Theorem missing_summary_raises (L : pylib) (keywords : list string) :
  time_eligible threshold no_summary = true
  /\ summary no_summary = None
  /\ get_recent_entries L (mkFeed [no_summary]) threshold keywords
     = Raise (AttributeError "summary").
Proof. repeat split. Qed.

(** C4: the code at a feed whose only entry has a publication date that
    could not be parsed, with any library, threshold and keywords. The key
    is present, so line 42 lets the entry through, and line 43 subscripts
    [None]. *)
Theorem unparsed_date_raises (L : pylib) (start_time : datetime)
  (keywords : list string) :
  pub_date unparsed_date = None
  /\ get_recent_entries L (mkFeed [unparsed_date]) start_time keywords
     = Raise TypeError.
Proof. split; reflexivity. Qed.


Lemma one_feed_failure_never_aborts_witness :
  fs two_feeds url_file = Some (Lines [line gone_url; line good_url])
  /\ fst (read_keywords two_feeds keyword_file) <> []
  /\ process_rss_file frag two_feeds url_file keyword_file
     = mkRun [Said ("Falha ao processar URL: " ++ gone_url)%string;
              SaidExn (StatusError 404)]
             [gone_url; good_url]
             (Some ("resenha_2024-03-01.txt",
                    [("Resenha diária do dia 2024-03-01" ++ nl ++ nl)%string;
                     ("URL: " ++ good_url ++ nl)%string;
                     ("Título: Bitcoin rises" ++ nl)%string;
                     ("Link: http://example.org/item" ++ nl)%string;
                     ("Resumo: Price up & stable" ++ nl)%string;
                     nl])).
Proof.
  assert (H1 : fs two_feeds url_file
               = Some (Lines [line gone_url; line good_url])) by reflexivity.
  assert (H2 : fst (read_keywords two_feeds keyword_file) <> [])
    by evaluated.
  destruct (@one_feed_failure_never_aborts frag two_feeds url_file
              keyword_file _ H1 H2)
    as (Hrun & Hfail & _ & Hstatus & _ & Hblock & Hfeed).
  refine (conj H1 (conj H2 _)).
  assert (Hgone : attempt frag two_feeds (yesterday_midnight (clock two_feeds))
                    (fst (read_keywords two_feeds keyword_file))
                    (strip (line gone_url)) = Raise (StatusError 404))
    by (apply (Hstatus _ 404 (mkFeed [])); [reflexivity | discriminate]).
  assert (Hgood : attempt frag two_feeds (yesterday_midnight (clock two_feeds))
                    (fst (read_keywords two_feeds keyword_file))
                    (strip (line good_url))
                  = Ok [("Bitcoin rises", "http://example.org/item",
                         "Price up & stable")])
    by (rewrite (Hfeed (strip (line good_url))
                   (mkFeed [bitcoin; weather; stale]) eq_refl);
        reflexivity).
  destruct (Hfail _ _ Hgone) as [Hshown1 Hwritten1].
  destruct (Hblock _ _ Hgood) as [Hshown2 Hwritten2].
  rewrite Hrun. cbv beta iota zeta delta [flat_map].
  rewrite Hshown1, Hshown2, Hwritten1, Hwritten2. reflexivity.
Defined.




(** Two spaces written as references come out as one. *)
Example white_space_references_collapse :
  decode_all ["#32"; "#32"] = Some "  "
  /\ clean_html frag (encode ["#32"; "#32"]) = " ".
Proof. split; reflexivity. Qed.






End Samples.

(** * Further properties *)

Section SearchProperties.

Variable L : pylib.

Lemma re_search_cases (k c : string) :
  (exists p, re_compile L k = Some p
             /\ re_search L k c = Ok (regex_search L p c)
             /\ matches L c k = regex_search L p c)
  \/ (re_compile L k = None /\ re_search L k c = Raise (ReError k)).
Proof.
  unfold re_search, matches. destruct (re_compile L k) as [p|].
  - left. exists p. auto.
  - right. auto.
Qed.

(** What the search answers is the disjunction of the single searches. *)
Lemma any_search_answer (keywords : list string) (c : string) (b : bool) :
  any_search L keywords c = Ok b -> b = existsb (matches L c) keywords.
Proof.
  induction keywords as [|k ks IH]; simpl.
  - now intros [= <-].
  - destruct (re_search_cases k c) as [(p & _ & -> & ->)|[_ ->]]; simpl;
      [|discriminate].
    destruct (regex_search L p c); simpl; [now intros [= <-] | exact IH].
Qed.

(** The search depends on the keywords and on nothing else of the loop. *)
Lemma visit_all_same_search (start_time : datetime) (kws1 kws2 : list string)
  (es : list entry) :
  (forall c, any_search L kws1 c = any_search L kws2 c) ->
  forall acc,
    visit_all L start_time kws1 es acc = visit_all L start_time kws2 es acc.
Proof.
  intros Hsame. induction es as [|e es IH]; intros acc; simpl; [reflexivity|].
  assert (Hv : visit L start_time kws1 e acc = visit L start_time kws2 e acc).
  { unfold visit. destruct (published_parsed e) as [[t|]|]; simpl; auto.
    destruct (datetime_ge (datetime_of t) start_time); auto.
    destruct (title e); simpl; auto. destruct (summary e); simpl; auto.
    now rewrite Hsame. }
  rewrite Hv. destruct (visit L start_time kws2 e acc); simpl; auto.
Qed.

(** X5. Line 47 in full: the search answers [True] exactly when the first
    keyword that matches or is invalid is one that matches, raises exactly
    when it is an invalid one (with that keyword in the exception), and
    answers [False] exactly when every keyword is valid and none matches. *)
Theorem any_search_first_decides (keywords : list string) (c : string) :
  (any_search L keywords c = Ok true <->
   exists pre k post,
     keywords = pre ++ k :: post /\ Forall (misses L c) pre
     /\ matches L c k = true)
  /\ (any_search L keywords c = Ok false <-> Forall (misses L c) keywords)
  /\ (forall x,
        any_search L keywords c = Raise x <->
        exists pre bad post,
          keywords = pre ++ bad :: post /\ Forall (misses L c) pre
          /\ re_compile L bad = None /\ x = ReError bad).
Proof.
  induction keywords as [|k ks (IHt & IHf & IHr)]; simpl.
  - split; [|split].
    + split; [discriminate|]. intros (pre & k & post & H & _).
      now destruct pre.
    + split; auto.
    + intros x. split; [discriminate|]. intros (pre & k & post & H & _).
      now destruct pre.
  - assert (Hmiss : forall p, re_compile L k = Some p ->
                              regex_search L p c = false -> misses L c k).
    { intros p Hp Hs. unfold misses, compiles, matches. rewrite Hp.
      split; [discriminate | exact Hs]. }
    assert (Hhead : forall pre k' post,
               k :: ks = pre ++ k' :: post -> Forall (misses L c) pre ->
               (pre = [] /\ k' = k /\ post = ks)
               \/ (exists pre', pre = k :: pre' /\ ks = pre' ++ k' :: post
                               /\ misses L c k /\ Forall (misses L c) pre')).
    { intros pre k' post Heq Hall. destruct pre as [|k0 pre'].
      - left. simpl in Heq. now inversion Heq.
      - right. simpl in Heq. inversion Heq; subst. inversion Hall; subst.
        exists pre'. auto. }
    destruct (re_search_cases k c) as [(p & Hp & -> & Hm)|[Hnone ->]]; simpl.
    + destruct (regex_search L p c) eqn:Hs; simpl.
      * split; [|split].
        -- split; [|reflexivity]. intros _. exists [], k, ks.
           repeat split; auto.
        -- split; [discriminate|]. intros Hall. inversion Hall; subst.
           destruct H1 as [_ H1]. congruence.
        -- intros x. split; [discriminate|].
           intros (pre & bad & post & Heq & Hall & Hbad & _).
           destruct (Hhead pre bad post Heq Hall)
             as [(_ & -> & _)|(pre' & _ & _ & [_ Hk] & _)]; congruence.
      * split; [|split].
        -- rewrite IHt. split.
           ++ intros (pre & k' & post & -> & Hall & Hk').
              exists (k :: pre), k', post. repeat split; auto.
              constructor; eauto.
           ++ intros (pre & k' & post & Heq & Hall & Hk').
              destruct (Hhead pre k' post Heq Hall)
                as [(_ & -> & _)|(pre' & _ & -> & _ & Hall')];
                [congruence|]. now exists pre', k', post.
        -- rewrite IHf. split.
           ++ intros Hall. constructor; eauto.
           ++ intros Hall. now inversion Hall.
        -- intros x. rewrite IHr. split.
           ++ intros (pre & bad & post & -> & Hall & Hbad & ->).
              exists (k :: pre), bad, post. repeat split; auto.
              constructor; eauto.
           ++ intros (pre & bad & post & Heq & Hall & Hbad & ->).
              destruct (Hhead pre bad post Heq Hall)
                as [(_ & -> & _)|(pre' & _ & -> & _ & Hall')];
                [congruence|]. now exists pre', bad, post.
    + split; [|split].
      * split; [discriminate|].
        intros (pre & k' & post & Heq & Hall & Hk').
        destruct (Hhead pre k' post Heq Hall)
          as [(_ & -> & _)|(pre' & _ & _ & [Hc _] & _)].
        -- unfold matches in Hk'. rewrite Hnone in Hk'. discriminate.
        -- exfalso. now apply Hc.
      * split; [discriminate|]. intros Hall. inversion Hall; subst.
        destruct H1 as [Hc _]. now apply Hc in Hnone.
      * intros x. split.
        -- intros [= <-]. exists [], k, ks. repeat split; auto.
        -- intros (pre & bad & post & Heq & Hall & Hbad & ->).
           destruct (Hhead pre bad post Heq Hall)
             as [(_ & -> & _)|(pre' & _ & _ & [Hc _] & _)];
             [reflexivity|]. now apply Hc in Hnone.
Qed.

End SearchProperties.

Section FilterReturns.

Variable L : pylib.


(** A turn of the loop that returns. *)
Lemma visit_returns (start_time : datetime) (keywords : list string)
  (e : entry) (acc acc' : list matched) :
  visit L start_time keywords e acc = Ok acc' ->
  visitable L start_time keywords e
  /\ acc' = acc ++ (if time_eligible start_time e && keyword_hit L keywords e
                    then [matched_of L e] else []).
Proof.
  unfold visit, visitable, time_eligible, pub_date, keyword_hit,
    search_buffer, matched_of.
  destruct (published_parsed e) as [[t|]|]; simpl.
  - destruct (datetime_ge (datetime_of t) start_time); simpl.
    + destruct (title e) as [ti|]; simpl; [|discriminate].
      destruct (summary e) as [su|]; simpl; [|discriminate].
      destruct (any_search L keywords (ti ++ String " " su)) as [b|x] eqn:Hany;
        simpl; [|discriminate].
      rewrite <- (any_search_answer L _ _ Hany).
      destruct b.
      * destruct (link e) as [li|]; simpl; [|discriminate].
        intros [= <-]. split; [|reflexivity].
        split; [discriminate|]. intros _.
        repeat split; try discriminate. now exists true.
      * intros [= <-]. split; [|now rewrite app_nil_r].
        split; [discriminate|]. intros _.
        repeat split; try discriminate. now exists false.
    + intros [= <-]. split; [|now rewrite app_nil_r].
      split; discriminate.
  - discriminate.
  - intros [= <-]. split; [|now rewrite app_nil_r]. split; discriminate.
Qed.

(** A turn of the loop on a visitable entry. *)
Lemma visit_visitable (start_time : datetime) (keywords : list string)
  (e : entry) (acc : list matched) :
  visitable L start_time keywords e ->
  visit L start_time keywords e acc
  = Ok (acc ++ (if time_eligible start_time e && keyword_hit L keywords e
                then [matched_of L e] else [])).
Proof.
  unfold visit, visitable, time_eligible, pub_date, keyword_hit,
    search_buffer, matched_of.
  intros [Hdate Hrest].
  destruct (published_parsed e) as [[t|]|]; simpl in *;
    [| congruence | now rewrite app_nil_r].
  destruct (datetime_ge (datetime_of t) start_time); simpl;
    [| now rewrite app_nil_r].
  destruct (Hrest eq_refl) as (Ht & Hs & [b Hany] & Hlink).
  destruct (title e) as [ti|]; [|congruence].
  destruct (summary e) as [su|]; [|congruence].
  simpl in *. rewrite Hany. simpl.
  rewrite <- (any_search_answer L _ _ Hany) in *.
  destruct b; [|now rewrite app_nil_r].
  destruct (link e) as [li|]; [reflexivity|]. now destruct (Hlink eq_refl).
Qed.


Lemma visit_all_returns (start_time : datetime) (keywords : list string)
  (es : list entry) :
  forall acc recent_entries,
    visit_all L start_time keywords es acc = Ok recent_entries ->
    Forall (visitable L start_time keywords) es
    /\ recent_entries
       = acc ++ map (matched_of L)
                    (filter (fun e => time_eligible start_time e
                                      && keyword_hit L keywords e) es).
Proof.
  induction es as [|e es IH]; intros acc recent_entries; simpl.
  - intros [= <-]. split; [constructor | now rewrite app_nil_r].
  - destruct (visit L start_time keywords e acc) as [acc'|x] eqn:Hv; simpl;
      [|discriminate].
    intros H. destruct (visit_returns _ _ _ _ Hv) as [He ->].
    destruct (IH _ _ H) as [Hes ->]. split; [now constructor|].
    destruct (time_eligible start_time e && keyword_hit L keywords e); simpl.
    + now rewrite <- app_assoc.
    + now rewrite app_nil_r.
Qed.

Lemma visit_all_visitable (start_time : datetime) (keywords : list string)
  (es : list entry) :
  Forall (visitable L start_time keywords) es ->
  forall acc,
    visit_all L start_time keywords es acc
    = Ok (acc ++ map (matched_of L)
                     (filter (fun e => time_eligible start_time e
                                       && keyword_hit L keywords e) es)).
Proof.
  induction 1 as [|e es He _ IH]; intros acc; simpl.
  - now rewrite app_nil_r.
  - rewrite (visit_visitable _ He). simpl. rewrite IH.
    destruct (time_eligible start_time e && keyword_hit L keywords e); simpl.
    + now rewrite <- app_assoc.
    + now rewrite app_nil_r.
Qed.


(** X1. Whenever the filter returns, what it returns is the list of the
    entries at or after the threshold in whose title-and-summary buffer a
    keyword matches, in feed order, each as its title, its link and its
    cleaned summary; each of these entries has the three fields. No entry
    before the threshold, without a publish time or without a matching
    keyword is ever returned. *)
Theorem filter_returns_only_the_hits (f : feed) (start_time : datetime)
  (keywords : list string) (recent_entries : list matched) :
  get_recent_entries L f start_time keywords = Ok recent_entries ->
  let kept := filter (fun e => time_eligible start_time e
                               && keyword_hit L keywords e) (entries f) in
  recent_entries = map (matched_of L) kept
  /\ forall e, In e kept ->
               title e <> None /\ link e <> None /\ summary e <> None.
Proof.
  intros H kept. unfold get_recent_entries in H.
  destruct (visit_all_returns _ _ _ _ H) as [Hvis Heq]. split; [exact Heq|].
  intros e Hin. unfold kept in Hin. apply filter_In in Hin as [Hin Hsel].
  apply andb_true_iff in Hsel as [Hel Hhit].
  rewrite Forall_forall in Hvis.
  destruct (Hvis e Hin) as [_ Hrest].
  destruct (Hrest Hel) as (Ht & Hs & _ & Hl). auto.
Qed.



Lemma existsb_same_members (A : Type) (p : A -> bool) (l1 l2 : list A) :
  (forall a, In a l1 <-> In a l2) -> existsb p l1 = existsb p l2.
Proof.
  intros Hsame.
  destruct (existsb p l1) eqn:H1; destruct (existsb p l2) eqn:H2; auto.
  - apply existsb_exists in H1 as (a & Hin & Ha).
    assert (existsb p l2 = true)
      by (apply existsb_exists; exists a; split; [now apply Hsame | auto]).
    congruence.
  - apply existsb_exists in H2 as (a & Hin & Ha).
    assert (existsb p l1 = true)
      by (apply existsb_exists; exists a; split; [now apply Hsame | auto]).
    congruence.
Qed.

(** X4. With valid patterns only, the order of the keywords and their
    repetitions do not matter: two keyword lists with the same members give
    the same outcome of the filter, be it a list or an exception. *)
Theorem valid_keywords_act_as_a_set (f : feed) (start_time : datetime)
  (kws1 kws2 : list string) :
  Forall (compiles L) kws1 ->
  (forall k, In k kws1 <-> In k kws2) ->
  get_recent_entries L f start_time kws1
  = get_recent_entries L f start_time kws2.
Proof.
  intros Hvalid Hsame. unfold get_recent_entries.
  apply visit_all_same_search. intros c.
  assert (Hvalid2 : Forall (compiles L) kws2).
  { rewrite Forall_forall in *. intros k Hk. apply Hvalid. now apply Hsame. }
  rewrite (any_search_valid c Hvalid), (any_search_valid c Hvalid2).
  f_equal. now apply existsb_same_members.
Qed.

End FilterReturns.

Section Window.

Variable L : pylib.

Lemma lex_ge_trans (a : list Z) :
  forall b c,
    lex_compare a b <> Lt -> lex_compare b c <> Lt -> lex_compare a c <> Lt.
Proof.
  induction a as [|x a IH]; intros [|y b] [|z c]; simpl; try congruence.
  destruct (Z.compare_spec x y), (Z.compare_spec y z), (Z.compare_spec x z);
    subst; try lia; try congruence; eauto.
Qed.

Lemma lex_compare_antisym (a : list Z) :
  forall b, lex_compare b a = CompOpp (lex_compare a b).
Proof.
  induction a as [|x a IH]; intros [|y b]; simpl; try reflexivity.
  rewrite (Z.compare_antisym x y).
  destruct (x ?= y); simpl; auto.
Qed.

Lemma datetime_ge_iff (a b : datetime) :
  datetime_ge a b = true <-> lex_compare (fields a) (fields b) <> Lt.
Proof.
  unfold datetime_ge, datetime_compare.
  destruct (lex_compare (fields a) (fields b)); split; congruence.
Qed.

Lemma datetime_ge_trans (a b c : datetime) :
  datetime_ge a b = true -> datetime_ge b c = true -> datetime_ge a c = true.
Proof.
  rewrite !datetime_ge_iff. apply lex_ge_trans.
Qed.

Lemma datetime_lt_ge (a b : datetime) :
  datetime_lt a b = true -> datetime_ge b a = true.
Proof.
  unfold datetime_lt, datetime_ge, datetime_compare.
  rewrite (lex_compare_antisym (fields b) (fields a)).
  destruct (lex_compare (fields b) (fields a)); simpl; congruence.
Qed.

Lemma time_eligible_later (st1 st2 : datetime) (e : entry) :
  datetime_ge st2 st1 = true ->
  time_eligible st2 e = true -> time_eligible st1 e = true.
Proof.
  unfold time_eligible. destruct (pub_date e) as [d|]; [|discriminate].
  intros H21 Hd. exact (datetime_ge_trans _ _ _ Hd H21).
Qed.

Lemma visitable_later (st1 st2 : datetime) (keywords : list string)
  (e : entry) :
  datetime_ge st2 st1 = true ->
  visitable L st1 keywords e -> visitable L st2 keywords e.
Proof.
  intros H21 [Hdate Hrest]. split; [exact Hdate|].
  intros Hel. apply Hrest. exact (time_eligible_later _ _ e H21 Hel).
Qed.

Lemma filter_later (st1 st2 : datetime) (hit : entry -> bool)
  (es : list entry) :
  datetime_ge st2 st1 = true ->
  filter (fun e => time_eligible st2 e && hit e) es
  = filter (time_eligible st2)
           (filter (fun e => time_eligible st1 e && hit e) es).
Proof.
  intros H21. induction es as [|e es IH]; simpl; [reflexivity|].
  destruct (time_eligible st2 e) eqn:H2; simpl.
  - rewrite (time_eligible_later _ _ e H21 H2). simpl.
    destruct (hit e); simpl; [now rewrite H2, IH | exact IH].
  - destruct (time_eligible st1 e && hit e); simpl; [now rewrite H2|]; exact IH.
Qed.

(** X6. Moving the threshold later only drops entries: if the filter
    returns with a threshold, what it returns are the matches of the
    entries of the feed at or after that threshold in which a keyword
    matches; with any later threshold it returns too, and what it returns
    then are, in the same order, the matches of those of these entries that
    are at or after the later threshold, the ones before it being dropped;
    these are the entries of the feed at or after the later threshold in
    which a keyword matches. *)
Theorem later_threshold_only_drops_entries (f : feed) (st1 st2 : datetime)
  (keywords : list string) (recent_entries : list matched) :
  datetime_ge st2 st1 = true ->
  get_recent_entries L f st1 keywords = Ok recent_entries ->
  let kept := filter (fun e => time_eligible st1 e
                               && keyword_hit L keywords e) (entries f) in
  recent_entries = map (matched_of L) kept
  /\ get_recent_entries L f st2 keywords
     = Ok (map (matched_of L) (filter (time_eligible st2) kept))
  /\ filter (time_eligible st2) kept
     = filter (fun e => time_eligible st2 e && keyword_hit L keywords e)
              (entries f).
Proof.
  intros H21 H1 kept. unfold get_recent_entries in *.
  destruct (visit_all_returns L _ _ _ _ H1) as [Hvis ->].
  assert (Hlater : filter (time_eligible st2) kept
                   = filter (fun e => time_eligible st2 e
                                      && keyword_hit L keywords e)
                            (entries f))
    by (unfold kept; now rewrite <- (filter_later st1 st2 _ (entries f) H21)).
  split; [reflexivity|]. split; [|exact Hlater].
  rewrite (@visit_all_visitable L st2 keywords (entries f)).
  - now rewrite Hlater.
  - rewrite Forall_forall in *. intros e He.
    exact (@visitable_later st1 st2 keywords e H21 (Hvis e He)).
Qed.

(** X7. The threshold is always strictly earlier than the start of the
    run, so the window is never empty, and it has no upper end: every entry
    whose publish time is at or after the start of the run is
    time-eligible. *)
Theorem threshold_precedes_the_run (now : datetime) :
  datetime_lt (yesterday_midnight now) now = true
  /\ forall e t,
       published_parsed e = Some (Some t) ->
       datetime_ge (datetime_of t) now = true ->
       time_eligible (yesterday_midnight now) e = true.
Proof.
  assert (Hlt : datetime_lt (yesterday_midnight now) now = true).
  { unfold datetime_lt, datetime_ge, datetime_compare, yesterday_midnight,
      previous_day_midnight.
    destruct now as [y m d h mi s us]. simpl.
    destruct (1 <? d) eqn:Hd; simpl.
    - rewrite !Z.compare_refl.
      assert (Hc : (d - 1 ?= d) = Lt) by (apply Z.compare_lt_iff; lia).
      now rewrite Hc.
    - destruct (1 <? m) eqn:Hm; simpl.
      + rewrite Z.compare_refl.
        assert (Hc : (m - 1 ?= m) = Lt) by (apply Z.compare_lt_iff; lia).
        now rewrite Hc.
      + assert (Hc : (y - 1 ?= y) = Lt) by (apply Z.compare_lt_iff; lia).
        now rewrite Hc. }
  split; [exact Hlt|].
  intros e t Hpp Hge. unfold time_eligible, pub_date. rewrite Hpp.
  exact (datetime_ge_trans _ _ _ Hge (datetime_lt_ge _ _ Hlt)).
Qed.

End Window.

Section Loader.

Lemma lstrip_head (s : string) : head_space (lstrip s) = false.
Proof.
  induction s as [|c r IH]; simpl; [reflexivity|].
  destruct (is_space c) eqn:Hc; [exact IH | simpl; exact Hc].
Qed.

Lemma rstrip_head (s : string) :
  head_space s = false -> head_space (rstrip s) = false.
Proof.
  destruct s as [|c r]; simpl; [reflexivity|].
  intros Hc. destruct (rstrip r); simpl; [now rewrite Hc | exact Hc].
Qed.

Lemma rstrip_last (s : string) : last_space (rstrip s) = false.
Proof.
  induction s as [|c r IH]; simpl; [reflexivity|].
  destruct (rstrip r) as [|d r'] eqn:Hr.
  - destruct (is_space c) eqn:Hc; simpl; [reflexivity | exact Hc].
  - exact IH.
Qed.

Lemma lstrip_fixed (s : string) : head_space s = false -> lstrip s = s.
Proof.
  destruct s as [|c r]; simpl; [reflexivity|]. now intros ->.
Qed.

Lemma rstrip_fixed (s : string) : last_space s = false -> rstrip s = s.
Proof.
  induction s as [|c r IH]; [reflexivity|].
  destruct r as [|d r'].
  - simpl. now intros ->.
  - intros H. change (last_space (String d r') = false) in H.
    change (rstrip (String c (String d r')))
      with (match rstrip (String d r') with
            | EmptyString =>
                if is_space c then EmptyString else String c EmptyString
            | String _ _ as r0 => String c r0
            end).
    now rewrite (IH H).
Qed.

Lemma strip_trimmed (s : string) : trimmed (strip s).
Proof.
  unfold trimmed, strip. split.
  - apply rstrip_head, lstrip_head.
  - apply rstrip_last.
Qed.

Lemma strip_fixed (s : string) : trimmed s -> strip s = s.
Proof.
  intros [Hh Hl]. unfold strip. rewrite (lstrip_fixed s Hh).
  exact (rstrip_fixed s Hl).
Qed.

Lemma lstrip_ascii_only (s : string) :
  ascii_only s = true -> ascii_only (lstrip s) = true.
Proof.
  induction s as [|c r IH]; simpl; [reflexivity|].
  intros H. destruct (is_space c); [|exact H].
  apply andb_true_iff in H as [_ Hr]. now apply IH.
Qed.

Lemma rstrip_ascii_only (s : string) :
  ascii_only s = true -> ascii_only (rstrip s) = true.
Proof.
  induction s as [|c r IH]; simpl; [reflexivity|].
  intros H. apply andb_true_iff in H as [Hc Hr]. specialize (IH Hr).
  destruct (rstrip r) as [|d r'].
  - destruct (is_space c); simpl; [reflexivity | now rewrite Hc].
  - change (ascii_only (String c (String d r')))
      with ((Z.of_nat (nat_of_ascii c) <? 128) && ascii_only (String d r')).
    now rewrite Hc, IH.
Qed.

(** X8. For a keyword file whose lines hold only characters below 128
    (among which the white space of [str.strip] is that of [is_space]), the
    loader returns one keyword per line of the file, in file order, without
    dropping blank lines or duplicates, and prints nothing; every keyword
    holds only characters below 128 and is free of white space at both
    ends, so stripping it again changes nothing. *)
Theorem read_keywords_strips_every_line (w : world) (filename : string)
  (lines : list string) :
  fs w filename = Some (Lines lines) ->
  Forall (fun line => ascii_only line = true) lines ->
  read_keywords w filename = (map strip lines, [])
  /\ List.length (fst (read_keywords w filename)) = List.length lines
  /\ Forall (fun k => ascii_only k = true) (fst (read_keywords w filename))
  /\ Forall trimmed (fst (read_keywords w filename))
  /\ Forall (fun k => strip k = k) (fst (read_keywords w filename)).
Proof.
  intros Hfs Hascii. unfold read_keywords. rewrite Hfs. simpl.
  split; [reflexivity|]. split; [apply length_map|].
  split; [|split]; apply Forall_forall; intros k Hk;
    apply in_map_iff in Hk as (line & <- & Hin).
  - rewrite Forall_forall in Hascii. unfold strip.
    apply rstrip_ascii_only, lstrip_ascii_only. now apply Hascii.
  - apply strip_trimmed.
  - apply strip_fixed, strip_trimmed.
Qed.

End Loader.

Section Report.

Variable L : pylib.

Lemma run_without_keywords (w : world)
  (rss_filename keywords_filename : string) :
  isfile w rss_filename = true ->
  fst (read_keywords w keywords_filename) = [] ->
  process_rss_file L w rss_filename keywords_filename
  = mkRun (snd (read_keywords w keywords_filename) ++ [no_keywords]) [] None.
Proof.
  intros Hrss Hkw. unfold process_rss_file. rewrite Hrss. simpl.
  destruct (read_keywords w keywords_filename) as [keywords said].
  simpl in *. now subst keywords.
Qed.

(** The four ways a run ends. *)
Lemma process_rss_file_cases (w : world)
  (rss_filename keywords_filename : string) :
  let r := process_rss_file L w rss_filename keywords_filename in
  let keywords := fst (read_keywords w keywords_filename) in
  let start_time := yesterday_midnight (clock w) in
  (isfile w rss_filename = false
   /\ r = mkRun [Said ("O arquivo " ++ rss_filename
                       ++ " não foi encontrado.")%string] [] None)
  \/ (isfile w rss_filename = true /\ keywords = []
      /\ r = mkRun (snd (read_keywords w keywords_filename) ++ [no_keywords])
                   [] None)
  \/ (exists err,
        fs w rss_filename = Some (Unreadable err) /\ keywords <> []
        /\ r = mkRun [io_error rss_filename err] []
                     (Some (output_filename (clock w), [header (clock w)])))
  \/ (exists lines,
        fs w rss_filename = Some (Lines lines) /\ keywords <> []
        /\ r = mkRun (flat_map (line_shown L w start_time keywords) lines)
                     (map strip lines)
                     (Some (output_filename (clock w),
                            header (clock w)
                            :: flat_map (line_written L w start_time keywords)
                                        lines))).
Proof.
  cbv zeta.
  destruct (fs w rss_filename) as [[err|lines]|] eqn:Hfs.
  - destruct (fst (read_keywords w keywords_filename)) as [|k ks] eqn:Hk.
    + right; left. unfold isfile. rewrite Hfs.
      repeat split; auto.
      apply run_without_keywords; [unfold isfile; now rewrite Hfs | exact Hk].
    + right; right; left. exists err.
      split; [reflexivity|]. split; [discriminate|].
      assert (Hne : fst (read_keywords w keywords_filename) <> [])
        by (rewrite Hk; discriminate).
      pose proof (read_keywords_quiet _ _ Hne) as Hquiet.
      unfold process_rss_file, isfile. rewrite Hfs. simpl.
      destruct (read_keywords w keywords_filename) as [kws said].
      simpl in *. subst. reflexivity.
  - destruct (fst (read_keywords w keywords_filename)) as [|k ks] eqn:Hk.
    + right; left. unfold isfile. rewrite Hfs.
      repeat split; auto.
      apply run_without_keywords; [unfold isfile; now rewrite Hfs | exact Hk].
    + right; right; right. exists lines.
      split; [reflexivity|]. split; [discriminate|].
      assert (Hne : fst (read_keywords w keywords_filename) <> [])
        by (rewrite Hk; discriminate).
      rewrite (@process_rss_file_loop L w rss_filename keywords_filename lines
                 Hfs Hne).
      simpl. now rewrite Hk.
  - left. unfold isfile. rewrite Hfs. split; [reflexivity|].
    unfold process_rss_file, isfile. now rewrite Hfs.
Qed.

(** X9. In every run, each URL handed to [requests.get] is a line of the
    URL list stripped of the white space at its ends, so it neither begins
    nor ends with white space. *)
Theorem requested_urls_are_trimmed (w : world)
  (rss_filename keywords_filename : string) :
  Forall trimmed
         (requested (process_rss_file L w rss_filename keywords_filename)).
Proof.
  destruct (process_rss_file_cases w rss_filename keywords_filename)
    as [[_ ->]|[(_ & _ & ->)|[(err & _ & _ & ->)|(lines & _ & _ & ->)]]];
    simpl; try constructor.
  apply Forall_forall. intros u Hu.
  apply in_map_iff in Hu as (line & <- & _). apply strip_trimmed.
Qed.

(** X10. A report file is opened exactly when the URL list file exists and
    the keyword file yields at least one keyword. Whenever one is opened,
    its name is the one made from the date of the start of the run and the
    first string written to it is the header; and no URL is requested in a
    run that opens no report. *)
Theorem report_exists_iff_inputs_present (w : world)
  (rss_filename keywords_filename : string) :
  let r := process_rss_file L w rss_filename keywords_filename in
  (report r <> None <->
   isfile w rss_filename = true
   /\ fst (read_keywords w keywords_filename) <> [])
  /\ (forall name content,
        report r = Some (name, content) ->
        name = output_filename (clock w)
        /\ exists rest, content = header (clock w) :: rest)
  /\ (report r = None -> requested r = []).
Proof.
  cbv zeta.
  destruct (process_rss_file_cases w rss_filename keywords_filename)
    as [[Hno ->]|[(Hrss & Hkw & ->)|[(err & Hfs & Hkw & ->)
                                    |(lines & Hfs & Hkw & ->)]]];
    simpl.
  - split; [|split]; try discriminate; auto.
    split; [congruence|]. intros [H _]. congruence.
  - split; [|split]; try discriminate; auto.
    split; [congruence|]. intros [_ H]. congruence.
  - split; [|split]; try discriminate.
    + split; [|discriminate]. intros _. unfold isfile. rewrite Hfs. auto.
    + intros name content [= <- <-]. split; [reflexivity|]. now exists [].
  - split; [|split]; try discriminate.
    + split; [|discriminate]. intros _. unfold isfile. rewrite Hfs. auto.
    + intros name content [= <- <-]. split; [reflexivity|]. eauto.
Qed.

(** X11. When the URL list exists but cannot be read (and there are
    keywords), the report file has already been opened: the run leaves a
    report that holds the header only, prints the read error with the name
    of the URL list, and requests nothing. *)
Theorem unreadable_url_list_leaves_a_header_only_report (w : world)
  (rss_filename keywords_filename err : string) :
  fs w rss_filename = Some (Unreadable err) ->
  fst (read_keywords w keywords_filename) <> [] ->
  process_rss_file L w rss_filename keywords_filename
  = mkRun [Said ("Ocorreu um erro ao ler o arquivo " ++ rss_filename ++ ": "
                 ++ err)%string]
          []
          (Some (output_filename (clock w), [header (clock w)])).
Proof.
  intros Hfs Hkw.
  destruct (process_rss_file_cases w rss_filename keywords_filename)
    as [[Hno _]|[(_ & Hnil & _)|[(err' & Hfs' & _ & ->)|(lines & Hfs' & _)]]].
  - unfold isfile in Hno. now rewrite Hfs in Hno.
  - congruence.
  - rewrite Hfs in Hfs'. now inversion Hfs'.
  - congruence.
Qed.

Lemma ends_with_newline_append (a b : string) :
  b <> EmptyString ->
  ends_with_newline (a ++ b) = ends_with_newline b.
Proof.
  intros Hb. induction a as [|c a IH]; [reflexivity|].
  change ((String c a ++ b)%string) with (String c (a ++ b)%string).
  destruct (a ++ b)%string as [|d r] eqn:Hab.
  - destruct a; [simpl in Hab; congruence | discriminate].
  - exact IH.
Qed.

Lemma ends_with_newline_nl (a : string) : ends_with_newline (a ++ nl) = true.
Proof.
  rewrite ends_with_newline_append; [reflexivity | discriminate].
Qed.

Lemma ends_with_newline_labelled (label a : string) :
  ends_with_newline (label ++ a ++ nl) = true.
Proof.
  rewrite <- append_assoc. apply ends_with_newline_nl.
Qed.

Lemma feed_block_newlines (url : string) (recent_entries : list matched) :
  Forall (fun s => ends_with_newline s = true) (feed_block url recent_entries).
Proof.
  unfold feed_block. destruct recent_entries as [|m ms]; [constructor|].
  constructor.
  - apply ends_with_newline_labelled.
  - apply Forall_forall. intros s Hs.
    apply in_flat_map in Hs as ([[t l] su] & _ & Hs).
    cbv beta iota delta [entry_block] in Hs.
    destruct Hs as [<-|[<-|[<-|[<-|[]]]]];
      try apply ends_with_newline_labelled.
    reflexivity.
Qed.

(** X13. Every string that a run writes to the report ends with a newline:
    the header, the URL line of a block and the four strings of each match;
    the report file is therefore always newline-terminated. *)
Theorem report_strings_end_with_newline (w : world)
  (rss_filename keywords_filename name : string) (content : list string) :
  report (process_rss_file L w rss_filename keywords_filename)
  = Some (name, content) ->
  Forall (fun s => ends_with_newline s = true) content.
Proof.
  assert (Hheader : ends_with_newline (header (clock w)) = true).
  { unfold header. rewrite <- !append_assoc. apply ends_with_newline_nl. }
  destruct (process_rss_file_cases w rss_filename keywords_filename)
    as [[_ ->]|[(_ & _ & ->)|[(err & _ & _ & ->)|(lines & _ & _ & ->)]]];
    simpl; try discriminate; intros [= <- <-].
  - now repeat constructor.
  - constructor; [exact Hheader|].
    apply Forall_forall. intros s Hs.
    apply in_flat_map in Hs as (line & _ & Hs).
    unfold line_written in Hs.
    destruct (attempt _ _ _ _ _) as [recent|x]; [|contradiction].
    pose proof (feed_block_newlines (strip line) recent) as Hall.
    rewrite Forall_forall in Hall. now apply Hall.
Qed.

(** X14. A block of the report belongs to a URL that answered with status
    200, and it lists, after the URL line, exactly the entries of that feed
    that are at or after the threshold and matched by a keyword, in feed
    order, four strings for each: title, link, cleaned summary and an empty
    line. *)
Theorem block_lists_the_hits_of_its_feed (w : world) (start_time : datetime)
  (keywords : list string) (line : string) :
  line_written L w start_time keywords line <> [] ->
  exists f,
    http w (strip line) = Response 200 f
    /\ let kept := filter (fun e => time_eligible start_time e
                                    && keyword_hit L keywords e)
                          (entries f) in
       kept <> []
       /\ line_written L w start_time keywords line
          = ("URL: " ++ strip line ++ nl)%string
            :: flat_map entry_block (map (matched_of L) kept).
Proof.
  unfold line_written, attempt, get_rss_feed.
  destruct (http w (strip line)) as [msg|code f]; simpl; [congruence|].
  destruct (code =? 200) eqn:Hcode; simpl; [|congruence].
  apply Z.eqb_eq in Hcode. subst code.
  destruct (get_recent_entries L f start_time keywords) as [recent|x] eqn:Hf;
    [|congruence].
  intros Hne. exists f. split; [reflexivity|]. cbv zeta.
  unfold get_recent_entries in Hf.
  destruct (visit_all_returns L _ _ _ _ Hf) as [_ Heq]. simpl in Heq.
  subst recent.
  destruct (filter _ (entries f)) as [|e kept]; [now simpl in Hne|].
  split; [discriminate | reflexivity].
Qed.

End Report.

Section ReportName.

Lemma digit_char_injective (d d' : Z) :
  0 <= d < 10 -> 0 <= d' < 10 -> digit_char d = digit_char d' -> d = d'.
Proof.
  intros Hd Hd' H. unfold digit_char in H.
  apply (f_equal nat_of_ascii) in H.
  rewrite !nat_ascii_embedding in H by lia. lia.
Qed.

(** X12. For dates whose year fits four digits and whose month and day fit
    two, two runs write to the same report file exactly when they start on
    the same calendar day: reports of different days never share a name,
    and a second run on the same day names the same file. *)
Theorem report_name_identifies_the_day (a b : datetime) :
  fits_digits a -> fits_digits b ->
  (output_filename a = output_filename b <->
   year a = year b /\ month a = month b /\ day a = day b).
Proof.
  intros (Hy & Hm & Hd) (Hy' & Hm' & Hd'). split.
  - unfold output_filename, strftime_ymd. intros H.
    simpl in H. inversion H. clear H.
    repeat match goal with
           | Hdigit : digit_char _ = digit_char _ |- _ =>
               apply digit_char_injective in Hdigit;
               [| apply Z.mod_pos_bound; lia | apply Z.mod_pos_bound; lia]
           end.
    repeat split; Z.div_mod_to_equations; lia.
  - intros (Hyear & Hmonth & Hday). unfold output_filename, strftime_ymd.
    now rewrite Hyear, Hmonth, Hday.
Qed.

End ReportName.

(** * The further properties on sample inputs *)

Section MoreSamples.

Import Sample.

Ltac computed := vm_compute; first [reflexivity | discriminate].

Lemma filter_returns_only_the_hits_witness :
  get_recent_entries frag (mkFeed [bitcoin; weather; stale]) threshold
    ["Bitcoin"]
  = Ok [("Bitcoin rises", "http://example.org/item", "Price up & stable")]
  /\ [("Bitcoin rises", "http://example.org/item", "Price up & stable")]
     = map (matched_of frag)
           (filter (fun e => time_eligible threshold e
                             && keyword_hit frag ["Bitcoin"] e)
                   [bitcoin; weather; stale]).
Proof.
  assert (H : get_recent_entries frag (mkFeed [bitcoin; weather; stale])
                threshold ["Bitcoin"]
              = Ok [("Bitcoin rises", "http://example.org/item",
                     "Price up & stable")]) by computed.
  refine (conj H _).
  exact (proj1 (@filter_returns_only_the_hits frag _ _ _ _ H)).
Defined.


Lemma valid_keywords_act_as_a_set_witness :
  Forall (compiles frag) ["Bitcoin"; "Rain"]
  /\ (forall k, In k ["Bitcoin"; "Rain"] <-> In k ["Rain"; "Bitcoin"; "Rain"])
  /\ get_recent_entries frag (mkFeed [bitcoin; weather; stale]) threshold
       ["Bitcoin"; "Rain"]
     = get_recent_entries frag (mkFeed [bitcoin; weather; stale]) threshold
         ["Rain"; "Bitcoin"; "Rain"].
Proof.
  assert (H1 : Forall (compiles frag) ["Bitcoin"; "Rain"])
    by (repeat (apply Forall_cons || apply Forall_nil); computed).
  assert (H2 : forall k, In k ["Bitcoin"; "Rain"]
                         <-> In k ["Rain"; "Bitcoin"; "Rain"])
    by (intros k; simpl; tauto).
  refine (conj H1 (conj H2 _)).
  exact (@valid_keywords_act_as_a_set frag _ threshold _ _ H1 H2).
Defined.

Lemma later_threshold_only_drops_entries_witness :
  datetime_ge noon threshold = true
  /\ get_recent_entries frag (mkFeed [bitcoin; rain]) threshold
       ["Bitcoin"; "Rain"]
     = Ok [("Bitcoin rises", "http://example.org/item", "Price up & stable");
           ("Rain at noon", "http://example.org/item", "Showers")]
  /\ get_recent_entries frag (mkFeed [bitcoin; rain]) noon
       ["Bitcoin"; "Rain"]
     = Ok [("Rain at noon", "http://example.org/item", "Showers")].
Proof.
  assert (H1 : datetime_ge noon threshold = true) by reflexivity.
  assert (H2 : get_recent_entries frag (mkFeed [bitcoin; rain]) threshold
                 ["Bitcoin"; "Rain"]
               = Ok [("Bitcoin rises", "http://example.org/item",
                      "Price up & stable");
                     ("Rain at noon", "http://example.org/item", "Showers")])
    by computed.
  refine (conj H1 (conj H2 _)).
  destruct (@later_threshold_only_drops_entries frag _ _ _ _ _ H1 H2)
    as (_ & Hlater & _).
  rewrite Hlater. reflexivity.
Defined.

Lemma read_keywords_strips_every_line_witness :
  fs two_feeds keyword_file = Some (Lines [line "Bitcoin"])
  /\ Forall (fun l => ascii_only l = true) [line "Bitcoin"]
  /\ fst (read_keywords two_feeds keyword_file) = ["Bitcoin"].
Proof.
  assert (H : fs two_feeds keyword_file = Some (Lines [line "Bitcoin"]))
    by reflexivity.
  assert (Ha : Forall (fun l => ascii_only l = true) [line "Bitcoin"])
    by (repeat constructor).
  refine (conj H (conj Ha _)).
  destruct (@read_keywords_strips_every_line two_feeds keyword_file _ H Ha)
    as [Heq _].
  rewrite Heq. reflexivity.
Defined.

Lemma unreadable_url_list_leaves_a_header_only_report_witness :
  fs unreadable_urls url_file = Some (Unreadable "Permission denied")
  /\ fst (read_keywords unreadable_urls keyword_file) <> []
  /\ report (process_rss_file frag unreadable_urls url_file keyword_file)
     = Some ("resenha_2024-03-01.txt",
             [("Resenha diária do dia 2024-03-01" ++ nl ++ nl)%string]).
Proof.
  assert (H1 : fs unreadable_urls url_file
               = Some (Unreadable "Permission denied")) by reflexivity.
  assert (H2 : fst (read_keywords unreadable_urls keyword_file) <> [])
    by computed.
  refine (conj H1 (conj H2 _)).
  rewrite (@unreadable_url_list_leaves_a_header_only_report frag
             unreadable_urls url_file keyword_file _ H1 H2).
  reflexivity.
Defined.

Lemma report_name_identifies_the_day_witness :
  fits_digits now /\ fits_digits noon
  /\ output_filename now <> output_filename noon.
Proof.
  assert (H1 : fits_digits now) by (unfold fits_digits; simpl; lia).
  assert (H2 : fits_digits noon) by (unfold fits_digits; simpl; lia).
  refine (conj H1 (conj H2 _)).
  intros H. apply (proj1 (report_name_identifies_the_day H1 H2)) in H.
  destruct H as (_ & Hmonth & _). discriminate.
Defined.

Lemma block_lists_the_hits_of_its_feed_witness :
  line_written frag two_feeds threshold ["Bitcoin"] (line good_url) <> []
  /\ exists f, http two_feeds (strip (line good_url)) = Response 200 f.
Proof.
  assert (H : line_written frag two_feeds threshold ["Bitcoin"]
                (line good_url) <> []) by computed.
  refine (conj H _).
  destruct (@block_lists_the_hits_of_its_feed frag two_feeds threshold
              ["Bitcoin"] (line good_url) H) as (f & Hf & _).
  now exists f.
Defined.

Lemma report_strings_end_with_newline_witness :
  report (process_rss_file frag two_feeds url_file keyword_file)
  = Some ("resenha_2024-03-01.txt",
          [("Resenha diária do dia 2024-03-01" ++ nl ++ nl)%string;
           ("URL: " ++ good_url ++ nl)%string;
           ("Título: Bitcoin rises" ++ nl)%string;
           ("Link: http://example.org/item" ++ nl)%string;
           ("Resumo: Price up & stable" ++ nl)%string;
           nl])
  /\ Forall (fun s => ends_with_newline s = true)
            [("Resenha diária do dia 2024-03-01" ++ nl ++ nl)%string;
             ("URL: " ++ good_url ++ nl)%string;
             ("Título: Bitcoin rises" ++ nl)%string;
             ("Link: http://example.org/item" ++ nl)%string;
             ("Resumo: Price up & stable" ++ nl)%string;
             nl].
Proof.
  assert (H : report (process_rss_file frag two_feeds url_file keyword_file)
              = Some ("resenha_2024-03-01.txt",
                      [("Resenha diária do dia 2024-03-01" ++ nl ++ nl)%string;
                       ("URL: " ++ good_url ++ nl)%string;
                       ("Título: Bitcoin rises" ++ nl)%string;
                       ("Link: http://example.org/item" ++ nl)%string;
                       ("Resumo: Price up & stable" ++ nl)%string;
                       nl])) by computed.
  refine (conj H _).
  exact (@report_strings_end_with_newline frag two_feeds url_file keyword_file
           _ _ H).
Defined.

End MoreSamples.
